(** * Filtered graphs of osrm-backend (include/util/filtered_graph.hpp)

    A shallow embedding of the two specialisations of
    [util::detail::FilteredGraphImpl]: the one over a static graph, which
    keeps the filter in a vector next to the graph, and the one over a
    dynamic graph, which keeps a filter bit inside every edge record.

    Node and edge ids are 32-bit unsigned integers, modelled as [N].
    For the static class [BOOST_ASSERT] is modelled as in a debug build: a
    failed assertion aborts, which is the [None] of the option monad.  The
    dynamic class is embedded as its text reads: its assertions name a
    member it does not have, so it builds only with assertions disabled, and
    its adjacency filter reads a member of the caller's edge data.
    [FindEdge] calls [GetTarge], which is declared nowhere: what it returns
    is a parameter. *)

From stdpp Require Import base numbers option list.

Local Open Scope N_scope.

(** ** Ids, weights and the constants of util/typedefs.hpp *)

Abbreviation NodeID := N (only parsing).
Abbreviation EdgeID := N (only parsing).
Abbreviation EdgeWeight := Z (only parsing).

(** Modelled from the spec: util/typedefs.hpp is not part of the files
    embedded here.  The spec only says that there are sentinel "no edge" and
    "no node" ids, and the code names an invalid weight; the three constants
    are parameters of the development. *)
Class Typedefs := {
  SPECIAL_NODEID : NodeID;
  SPECIAL_EDGEID : EdgeID;
  INVALID_EDGE_WEIGHT : EdgeWeight
}.

(** The [.weight] member that [FindSmallestEdge] reads from the edge data. *)
Class HasWeight (EdgeDataT : Type) := weight : EdgeDataT → EdgeWeight.

(** The [.filter] member of the caller's edge data that the filter of the
    dynamic class's [GetAdjacentEdgeRange] reads (line 202): there
    [GetEdgeData(edge)] is the member of the class, which returns the
    [.data] of the edge record, an [EdgeDataT]. *)
Class HasFilter (EdgeDataT : Type) := member_filter : EdgeDataT → bool.

(** [GetTarge(edge)], called by [FindEdge] in both classes (lines 74 and
    210) and declared nowhere in the sources: a function of the view and the
    edge id whose result is compared with a node id. *)
Class Undeclared (View : Type) := GetTarge : View → EdgeID → NodeID.


(** Conversion of a count to [unsigned]. *)
Definition to_unsigned (x : N) : N := x mod 2 ^ 32.

(** [util::irange<T>(first, last)]: the ids [first, ..., last - 1]. *)
Definition irange (first last : N) : list N :=
  N.of_nat <$> seq (N.to_nat first) (N.to_nat last - N.to_nat first).

(** [std::count_if] over a range. *)
Fixpoint count_if {A} (p : A → bool) (range : list A) : nat :=
  match range with
  | [] => 0%nat
  | x :: range' => ((if p x then 1 else 0) + count_if p range')%nat
  end.

(** [range | boost::adaptors::filtered(p)]: the elements that satisfy [p],
    in the order of the range. *)
Fixpoint filtered {A} (p : A → bool) (range : list A) : list A :=
  match range with
  | [] => []
  | x :: range' => if p x then x :: filtered p range' else filtered p range'
  end.

(** [std::transform(first, last, out, f)]: the k-th element of the source
    is mapped by [f] and written through the output iterator, which starts
    at position [pos] of [out] and advances by one. *)
Fixpoint transform {A B} (f : A → B) (src : list A) (out : list B) (pos : nat)
  : list B :=
  match src with
  | [] => out
  | x :: src' => transform f src' (<[pos := f x]> out) (S pos)
  end.

(** [BOOST_ASSERT(b)] of a debug build. *)
Definition BOOST_ASSERT (b : bool) : option unit :=
  if b then Some () else None.

(** [v[e]] of a [Vector<bool>]; a read past the end is outside the contract
    of the container and is given the value [false] here. *)
Definition at_index (v : list bool) (e : EdgeID) : bool :=
  default false (v !! N.to_nat e).

(** ** The underlying adjacency store *)

Module Graph.

(** Modelled from the spec: util/static_graph.hpp and
    util/dynamic_graph.hpp are not part of the files embedded here.  The filtered
    graph only uses the store through the operations named by the spec
    (4.1 AdjacencyStore): node and edge counts, [edgesOf(node)] as an
    ordered sequence of edge ids, [target(edge)] and [data(edge)]. *)
Record t (EdgeDataT : Type) := {
  GetNumberOfNodes : N;
  GetNumberOfEdges : N;
  GetAdjacentEdgeRange : NodeID → list EdgeID;
  GetTarget : EdgeID → NodeID;
  GetEdgeData : EdgeID → EdgeDataT
}.
Arguments GetNumberOfNodes {_} _.
Arguments GetNumberOfEdges {_} _.
Arguments GetAdjacentEdgeRange {_} _ _.
Arguments GetTarget {_} _ _.
Arguments GetEdgeData {_} _ _.

(** Modelled from the spec: [graph.Transform<EdgeDataU>()] of the dynamic
    graph, whose header is not part of the files embedded here: the same
    nodes, edges and targets, every edge record converted by the constructor
    of the new data type. *)
Definition Transform {D D'} (convert : D → D') (g : t D) : t D' :=
  {| GetNumberOfNodes := GetNumberOfNodes g;
     GetNumberOfEdges := GetNumberOfEdges g;
     GetAdjacentEdgeRange := GetAdjacentEdgeRange g;
     GetTarget := GetTarget g;
     GetEdgeData := λ e, convert (GetEdgeData g e) |}.

(** A write through the reference returned by [graph.GetEdgeData(edge)]. *)
Definition SetEdgeData {D} (g : t D) (edge : EdgeID) (d : D) : t D :=
  {| GetNumberOfNodes := GetNumberOfNodes g;
     GetNumberOfEdges := GetNumberOfEdges g;
     GetAdjacentEdgeRange := GetAdjacentEdgeRange g;
     GetTarget := GetTarget g;
     GetEdgeData := λ e, if decide (e = edge) then d else GetEdgeData g e |}.

(** All adjacency entries of the nodes [0 .. GetNumberOfNodes - 1], node
    by node. *)
Definition all_edges {D} (g : t D) : list EdgeID :=
  concat (GetAdjacentEdgeRange g <$> irange 0 (GetNumberOfNodes g)).

(** The type of [graph.Renumber(old_to_new_node)], whose body is in the
    absent headers. *)
Definition renumbering : Type := ∀ D, t D → list NodeID → t D.

End Graph.

(** ** The lookups shared by both specialisations

    [FindEdge], [FindEdgeInEitherDirection] and [FindEdgeIndicateIfReverse]
    have the same text in both classes; they are written once over the
    adjacency of the view and [GetTarge].  They call no accessor that
    asserts, so they return plain values.  [FindSmallestEdge] is written
    here over accessors that can fail an assertion, as those of the static
    class do; the dynamic class has its own copy. *)

Section Lookups.
Context `{Typedefs} {EdgeDataT : Type} `{HasWeight EdgeDataT}.
Variable GetAdjacentEdgeRange : NodeID → list EdgeID.
Variable GetTarge : EdgeID → NodeID.
Variable GetTarget : EdgeID → option NodeID.
Variable GetEdgeData : EdgeID → option EdgeDataT.

Fixpoint FindEdge_loop (to : NodeID) (range : list EdgeID) : EdgeID :=
  match range with
  | [] => SPECIAL_EDGEID
  | edge :: range' =>
      if decide (to = GetTarge edge) then edge else FindEdge_loop to range'
  end.

Definition FindEdge (from to : NodeID) : EdgeID :=
  FindEdge_loop to (GetAdjacentEdgeRange from).

Fixpoint FindSmallestEdge_loop (to : NodeID) (filter : EdgeDataT → bool)
    (range : list EdgeID) (smallest_edge : EdgeID)
    (smallest_weight : EdgeWeight) : option EdgeID :=
  match range with
  | [] => Some smallest_edge
  | edge :: range' =>
      target ← GetTarget edge;
      data ← GetEdgeData edge;
      if bool_decide (target = to) && (weight data <? smallest_weight)%Z
         && filter data
      then FindSmallestEdge_loop to filter range' edge (weight data)
      else FindSmallestEdge_loop to filter range' smallest_edge smallest_weight
  end.

Definition FindSmallestEdge (from to : NodeID) (filter : EdgeDataT → bool)
  : option EdgeID :=
  FindSmallestEdge_loop to filter (GetAdjacentEdgeRange from)
    SPECIAL_EDGEID INVALID_EDGE_WEIGHT.

Definition FindEdgeInEitherDirection (from to : NodeID) : EdgeID :=
  let tmp := FindEdge from to in
  if decide (SPECIAL_NODEID ≠ tmp) then tmp else FindEdge to from.

(** The out-parameter [bool &result] is passed in and returned next to
    the edge id. *)
Definition FindEdgeIndicateIfReverse (from to : NodeID) (result : bool)
  : EdgeID * bool :=
  let current_iterator := FindEdge from to in
  if decide (SPECIAL_NODEID = current_iterator) then
    let current_iterator := FindEdge to from in
    if decide (SPECIAL_NODEID ≠ current_iterator)
    then (current_iterator, true)
    else (current_iterator, result)
  else (current_iterator, result).
End Lookups.

(** ** FilteredGraphImpl<util::StaticGraph<EdgeDataT, Ownership>, Ownership> *)

Module StaticFiltered.
Section StaticFiltered.
Context `{Typedefs} {EdgeDataT : Type} `{HasWeight EdgeDataT}.

Record FilteredGraphImpl := {
  graph : Graph.t EdgeDataT;
  edge_filter : list bool
}.

Context {GT : Undeclared FilteredGraphImpl}.

Definition GetNumberOfNodes (v : FilteredGraphImpl) : N :=
  Graph.GetNumberOfNodes (graph v).

Definition GetNumberOfEdges (v : FilteredGraphImpl) : N :=
  Graph.GetNumberOfEdges (graph v).

Definition GetOutDegree (v : FilteredGraphImpl) (n : NodeID) : N :=
  let range := Graph.GetAdjacentEdgeRange (graph v) n in
  to_unsigned
    (N.of_nat (count_if (λ edge, at_index (edge_filter v) edge) range)).

Definition GetTarget (v : FilteredGraphImpl) (e : EdgeID) : option NodeID :=
  BOOST_ASSERT (at_index (edge_filter v) e);;
  Some (Graph.GetTarget (graph v) e).

Definition GetEdgeData (v : FilteredGraphImpl) (e : EdgeID)
  : option EdgeDataT :=
  BOOST_ASSERT (at_index (edge_filter v) e);;
  Some (Graph.GetEdgeData (graph v) e).

Definition GetAdjacentEdgeRange (v : FilteredGraphImpl) (n : NodeID)
  : list EdgeID :=
  filtered (λ edge, at_index (edge_filter v) edge)
           (Graph.GetAdjacentEdgeRange (graph v) n).


Definition FindEdge (v : FilteredGraphImpl) :=
  FindEdge (GetAdjacentEdgeRange v) (GetTarge v).

Definition FindSmallestEdge (v : FilteredGraphImpl) :=
  FindSmallestEdge (GetAdjacentEdgeRange v) (GetTarget v) (GetEdgeData v).

Definition FindEdgeInEitherDirection (v : FilteredGraphImpl) :=
  FindEdgeInEitherDirection (GetAdjacentEdgeRange v) (GetTarge v).

Definition FindEdgeIndicateIfReverse (v : FilteredGraphImpl) :=
  FindEdgeIndicateIfReverse (GetAdjacentEdgeRange v) (GetTarge v).

(** [FilteredGraphImpl(Graph graph, Vector<bool> edge_filter_)]: the members
    are initialised, then the size of the filter is asserted. *)
Definition FilteredGraphImpl_vector (graph : Graph.t EdgeDataT)
    (edge_filter_ : list bool) : option FilteredGraphImpl :=
  let this := {| graph := graph; edge_filter := edge_filter_ |} in
  BOOST_ASSERT
    (bool_decide (N.of_nat (length (edge_filter this))
                  = Graph.GetNumberOfEdges graph));;
  Some this.

(** [FilteredGraphImpl(Graph graph, Pred filter)]: the filter is created
    with one (false) entry per edge, then [std::transform] writes
    [filter(id)] for the ids [0 .. GetNumberOfEdges - 1].  The edge count is
    read from the constructor argument after it has been moved into the
    member; a moved-from graph is taken to report the count it had. *)
Definition FilteredGraphImpl_pred (graph : Graph.t EdgeDataT)
    (filter : EdgeID → bool) : FilteredGraphImpl :=
  let edge_filter :=
    replicate (N.to_nat (Graph.GetNumberOfEdges graph)) false in
  let edge_ids := irange 0 (Graph.GetNumberOfEdges graph) in
  {| graph := graph;
     edge_filter := transform filter edge_ids edge_filter 0 |}.

(** [Renumber]: the graph is renumbered; the permutation of the filter is
    commented out in the source (FIXME). *)
Definition Renumber (graph_Renumber : Graph.renumbering)
    (v : FilteredGraphImpl) (old_to_new_node : list NodeID)
  : FilteredGraphImpl :=
  {| graph := graph_Renumber _ (graph v) old_to_new_node;
     edge_filter := edge_filter v |}.

(** A write through the reference returned by the non-const
    [GetEdgeData(e)]. *)
Definition SetEdgeData (v : FilteredGraphImpl) (e : EdgeID) (d : EdgeDataT)
  : option FilteredGraphImpl :=
  BOOST_ASSERT (at_index (edge_filter v) e);;
  Some {| graph := Graph.SetEdgeData (graph v) e d;
          edge_filter := edge_filter v |}.

(** The views that a program can hold: built by one of the two
    constructors, then renumbered or written through [GetEdgeData]. *)
Inductive constructed (graph_Renumber : Graph.renumbering)
  : FilteredGraphImpl → Prop :=
| constructed_vector g edge_filter_ v :
    FilteredGraphImpl_vector g edge_filter_ = Some v →
    constructed graph_Renumber v
| constructed_pred g filter :
    constructed graph_Renumber (FilteredGraphImpl_pred g filter)
| constructed_Renumber v old_to_new_node :
    constructed graph_Renumber v →
    constructed graph_Renumber (Renumber graph_Renumber v old_to_new_node)
| constructed_SetEdgeData v e d v' :
    constructed graph_Renumber v →
    SetEdgeData v e d = Some v' →
    constructed graph_Renumber v'.

(** [e] is an edge from [from] to [to] of the store that the filter lets
    through, and [connected] says that there is one. *)
Definition unmasked_edge (v : FilteredGraphImpl) (from to : NodeID)
    (e : EdgeID) : Prop :=
  In e (Graph.GetAdjacentEdgeRange (graph v) from)
  ∧ at_index (edge_filter v) e = true
  ∧ Graph.GetTarget (graph v) e = to.


Definition edge_weight (v : FilteredGraphImpl) (e : EdgeID) : EdgeWeight :=
  weight (Graph.GetEdgeData (graph v) e).

(** [e] is an unmasked edge from [from] to [to] whose data satisfies
    [filter]. *)
Definition eligible (v : FilteredGraphImpl) (from to : NodeID)
    (filter : EdgeDataT → bool) (e : EdgeID) : Prop :=
  unmasked_edge v from to e ∧ filter (Graph.GetEdgeData (graph v) e) = true.


(** The scan of [FindEdge(from, to)] has an edge to stop at: an edge of the
    adjacency that the view shows at [from] which [GetTarge] maps to [to]. *)
Definition matched (v : FilteredGraphImpl) (from to : NodeID) : Prop :=
  ∃ e, In e (GetAdjacentEdgeRange v from) ∧ GetTarge v e = to.

(** Sum of [GetOutDegree] over all nodes. *)
Definition total_out_degree (v : FilteredGraphImpl) : N :=
  foldr N.add 0 (GetOutDegree v <$> irange 0 (GetNumberOfNodes v)).

End StaticFiltered.
Arguments FilteredGraphImpl : clear implicits.
End StaticFiltered.
(** ** FilteredGraphImpl<util::DynamicGraph<EdgeDataT>, Ownership::Container> *)

Module DynamicFiltered.
Section DynamicFiltered.
Context `{Typedefs} {EdgeDataT : Type} `{HasWeight EdgeDataT}
  `{HasFilter EdgeDataT}.

(** [struct EdgeDataWithFilter]; the converting constructor from
    [EdgeDataT] clears the filter bit. *)
Record EdgeDataWithFilter := {
  data : EdgeDataT;
  filter : bool
}.

Definition EdgeDataWithFilter_of (data : EdgeDataT) : EdgeDataWithFilter :=
  {| data := data; filter := false |}.

Record FilteredGraphImpl := {
  graph : Graph.t EdgeDataWithFilter
}.


Context {GT : Undeclared FilteredGraphImpl}.

Definition GetNumberOfNodes (v : FilteredGraphImpl) : N :=
  Graph.GetNumberOfNodes (graph v).

Definition GetNumberOfEdges (v : FilteredGraphImpl) : N :=
  Graph.GetNumberOfEdges (graph v).

(** [GetTarget] and [GetEdgeData] open with [BOOST_ASSERT(edge_filter[e])],
    but [edge_filter] is a member of the static class only: with assertions
    enabled the class does not compile, and with assertions disabled the
    macro expands to nothing.  The accessors are those of the build that
    exists: they return the target, and the [.data] of the edge record, of
    any edge. *)
Definition GetTarget (v : FilteredGraphImpl) (e : EdgeID) : NodeID :=
  Graph.GetTarget (graph v) e.

Definition GetEdgeData (v : FilteredGraphImpl) (e : EdgeID) : EdgeDataT :=
  data (Graph.GetEdgeData (graph v) e).

(** The filter calls [GetEdgeData(edge)], the member above, and reads
    [.filter] of what it returns: the member of the caller's [EdgeDataT],
    not the bit of [EdgeDataWithFilter]. *)
Definition GetAdjacentEdgeRange (v : FilteredGraphImpl) (n : NodeID)
  : list EdgeID :=
  filtered (λ edge, member_filter (GetEdgeData v edge))
           (Graph.GetAdjacentEdgeRange (graph v) n).

Definition FindEdge (v : FilteredGraphImpl) :=
  FindEdge (GetAdjacentEdgeRange v) (GetTarge v).

Fixpoint FindSmallestEdge_loop (v : FilteredGraphImpl) (to : NodeID)
    (filter : EdgeDataT → bool) (range : list EdgeID)
    (smallest_edge : EdgeID) (smallest_weight : EdgeWeight) : EdgeID :=
  match range with
  | [] => smallest_edge
  | edge :: range' =>
      let target := GetTarget v edge in
      let data := GetEdgeData v edge in
      if bool_decide (target = to) && (weight data <? smallest_weight)%Z
         && filter data
      then FindSmallestEdge_loop v to filter range' edge (weight data)
      else FindSmallestEdge_loop v to filter range' smallest_edge
             smallest_weight
  end.

Definition FindSmallestEdge (v : FilteredGraphImpl) (from to : NodeID)
    (filter : EdgeDataT → bool) : EdgeID :=
  FindSmallestEdge_loop v to filter (GetAdjacentEdgeRange v from)
    SPECIAL_EDGEID INVALID_EDGE_WEIGHT.

Definition FindEdgeInEitherDirection (v : FilteredGraphImpl) :=
  FindEdgeInEitherDirection (GetAdjacentEdgeRange v) (GetTarge v).

Definition FindEdgeIndicateIfReverse (v : FilteredGraphImpl) :=
  FindEdgeIndicateIfReverse (GetAdjacentEdgeRange v) (GetTarge v).

(** [data.filter = b] on [auto &data = graph.GetEdgeData(edge)]. *)
Definition set_filter (g : Graph.t EdgeDataWithFilter) (edge : EdgeID)
    (b : bool) : Graph.t EdgeDataWithFilter :=
  Graph.SetEdgeData g edge
    {| data := data (Graph.GetEdgeData g edge); filter := b |}.

(** The inner loop of the constructor, over the edges of [node]. *)
Definition mark_edges (filter : NodeID → bool) (valid_start : bool)
    (g : Graph.t EdgeDataWithFilter) (range : list EdgeID)
  : Graph.t EdgeDataWithFilter :=
  foldl (λ g edge,
           let valid_target := filter (Graph.GetTarget g edge) in
           set_filter g edge (valid_start && valid_target))
        g range.

(** The outer loop of the constructor, over the nodes. *)
Definition mark_nodes (filter : NodeID → bool)
    (g : Graph.t EdgeDataWithFilter) (nodes : list NodeID)
  : Graph.t EdgeDataWithFilter :=
  foldl (λ g node,
           let valid_start := filter node in
           mark_edges filter valid_start g (Graph.GetAdjacentEdgeRange g node))
        g nodes.

(** [FilteredGraphImpl(Graph graph_, Pred filter)]: the graph is
    transformed to carry a (cleared) filter bit on every edge, then the two
    loops set the bits. *)
Definition FilteredGraphImpl_pred (graph_ : Graph.t EdgeDataT)
    (filter : NodeID → bool) : FilteredGraphImpl :=
  let graph := Graph.Transform EdgeDataWithFilter_of graph_ in
  {| graph :=
       mark_nodes filter graph (irange 0 (Graph.GetNumberOfNodes graph)) |}.

Definition Renumber (graph_Renumber : Graph.renumbering)
    (v : FilteredGraphImpl) (old_to_new_node : list NodeID)
  : FilteredGraphImpl :=
  {| graph := graph_Renumber _ (graph v) old_to_new_node |}.


(** The bit of the edge record, which the constructor writes. *)
Definition filter_bit (v : FilteredGraphImpl) (e : EdgeID) : bool :=
  filter (Graph.GetEdgeData (graph v) e).

(** The scan of [FindEdge(from, to)] has an edge to stop at: an edge of the
    adjacency that the view shows at [from] which [GetTarge] maps to [to]. *)
Definition matched (v : FilteredGraphImpl) (from to : NodeID) : Prop :=
  ∃ e, In e (GetAdjacentEdgeRange v from) ∧ GetTarge v e = to.

End DynamicFiltered.
Arguments FilteredGraphImpl : clear implicits.
Arguments EdgeDataWithFilter : clear implicits.
End DynamicFiltered.

(** ** Concrete constants and small graphs

    The values that 32-bit ids and weights give the constants, and a store
    with three nodes and the edges 0: 0->1, 1: 0->2, 2: 1->2. *)

#[local] Instance typedefs32 : Typedefs := {|
  SPECIAL_NODEID := 4294967295;
  SPECIAL_EDGEID := 4294967295;
  INVALID_EDGE_WEIGHT := 2147483647
|}.

#[local] Instance weight_Z : HasWeight Z := λ w, w.

Definition triangle (w0 w1 w2 : Z) : Graph.t Z :=
  {| Graph.GetNumberOfNodes := 3;
     Graph.GetNumberOfEdges := 3;
     Graph.GetAdjacentEdgeRange := λ n,
       match n with 0 => [0; 1] | 1 => [2] | _ => [] end;
     Graph.GetTarget := λ e, match e with 0 => 1 | _ => 2 end;
     Graph.GetEdgeData := λ e,
       match e with 0 => w0 | 1 => w1 | _ => w2 end |}.

(** Two nodes and three parallel edges 0, 1, 2 from node 0 to node 1. *)
Definition parallel (w0 w1 w2 : Z) : Graph.t Z :=
  {| Graph.GetNumberOfNodes := 2;
     Graph.GetNumberOfEdges := 3;
     Graph.GetAdjacentEdgeRange := λ n, match n with 0 => [0; 1; 2] | _ => [] end;
     Graph.GetTarget := λ _, 1;
     Graph.GetEdgeData := λ e,
       match e with 0 => w0 | 1 => w1 | _ => w2 end |}.

(** A renumbering that relabels the targets and leaves the adjacency in
    place; it stands in for [graph.Renumber] where an instance is needed. *)
Definition relabel_targets : Graph.renumbering := λ D g old_to_new_node,
  {| Graph.GetNumberOfNodes := Graph.GetNumberOfNodes g;
     Graph.GetNumberOfEdges := Graph.GetNumberOfEdges g;
     Graph.GetAdjacentEdgeRange := Graph.GetAdjacentEdgeRange g;
     Graph.GetTarget := λ e,
       default (Graph.GetTarget g e)
               (old_to_new_node !! N.to_nat (Graph.GetTarget g e));
     Graph.GetEdgeData := Graph.GetEdgeData g |}.

(** Edge data with a weight and a [filter] member, and the graph [g] with
    the member of edge [e] set to [member e]. *)
#[local] Instance weight_pair : HasWeight (Z * bool) := fst.

#[local] Instance filter_pair : HasFilter (Z * bool) := snd.

Definition with_filter_member (g : Graph.t Z) (member : EdgeID → bool)
  : Graph.t (Z * bool) :=
  {| Graph.GetNumberOfNodes := Graph.GetNumberOfNodes g;
     Graph.GetNumberOfEdges := Graph.GetNumberOfEdges g;
     Graph.GetAdjacentEdgeRange := Graph.GetAdjacentEdgeRange g;
     Graph.GetTarget := Graph.GetTarget g;
     Graph.GetEdgeData := λ e, (Graph.GetEdgeData g e, member e) |}.

(** [GetTarge] resolved to the target that the store holds for the edge,
    which is what [GetTarget] returns when it returns. *)
Definition static_GetTarge_reading {D}
  : Undeclared (StaticFiltered.FilteredGraphImpl D) :=
  λ v e, Graph.GetTarget (StaticFiltered.graph v) e.

Definition dynamic_GetTarge_reading {D}
  : Undeclared (DynamicFiltered.FilteredGraphImpl D) :=
  λ v e, DynamicFiltered.GetTarget v e.

(** The static view of the triangle that lets every edge through. *)
Definition static_example (w0 w1 w2 : Z) : StaticFiltered.FilteredGraphImpl Z :=
  {| StaticFiltered.graph := triangle w0 w1 w2;
     StaticFiltered.edge_filter := [true; true; true] |}.

(** The dynamic view of the triangle in which node 2 is not valid; the
    [filter] member of every edge data is true. *)
Definition dynamic_without_2 : DynamicFiltered.FilteredGraphImpl (Z * bool) :=
  DynamicFiltered.FilteredGraphImpl_pred
    (with_filter_member (triangle 1 1 1) (λ _, true)) (λ n, negb (n =? 2)).

(** The dynamic view of the triangle in which every node is valid; the
    [filter] member of every edge data is false. *)
Definition dynamic_all_valid : DynamicFiltered.FilteredGraphImpl (Z * bool) :=
  DynamicFiltered.FilteredGraphImpl_pred
    (with_filter_member (triangle 1 1 1) (λ _, false)) (λ _, true).

(** The static view of the triangle that hides the edge 1: 0->2. *)
Definition static_masked : StaticFiltered.FilteredGraphImpl Z :=
  {| StaticFiltered.graph := triangle 1 1 1;
     StaticFiltered.edge_filter := [true; false; true] |}.


(** The static view of the parallel edges that lets every edge through. *)
Definition static_parallel (w0 w1 w2 : Z) : StaticFiltered.FilteredGraphImpl Z :=
  {| StaticFiltered.graph := parallel w0 w1 w2;
     StaticFiltered.edge_filter := [true; true; true] |}.

(** ** Statements about the lookups *)

(** Every adjacency entry of the store is an edge id below its number of
    edges. *)
Definition edge_ids_in_bounds {D} (g : Graph.t D) : Prop :=
  ∀ n e, In e (Graph.GetAdjacentEdgeRange g n) → e < Graph.GetNumberOfEdges g.


(** ** Ranges, counting and transform *)

Lemma irange_length first last :
  length (irange first last) = (N.to_nat last - N.to_nat first)%nat.
Proof. unfold irange. by rewrite length_fmap, length_seq. Qed.

Lemma In_irange first last n :
  In n (irange first last) ↔ first ≤ n < last.
Proof.
  unfold irange. rewrite in_map_iff. split.
  - intros (k & <- & Hk%in_seq). lia.
  - intros Hn. exists (N.to_nat n). split; [apply N2Nat.id|].
    apply in_seq. lia.
Qed.

Lemma In_filtered {A} (p : A → bool) range x :
  In x (filtered p range) ↔ In x range ∧ p x = true.
Proof.
  induction range as [|y range IH]; simpl; [tauto|].
  destruct (p y) eqn:Hy; simpl; rewrite IH; intuition congruence.
Qed.

Lemma count_if_filtered {A} (p : A → bool) range :
  count_if p range = length (filtered p range).
Proof.
  induction range as [|y range IH]; simpl; [done|].
  destruct (p y); simpl; by rewrite IH.
Qed.

Lemma count_if_le {A} (p : A → bool) range :
  (count_if p range ≤ length range)%nat.
Proof.
  induction range as [|y range IH]; simpl; [done|]. destruct (p y); lia.
Qed.

Lemma count_if_lt {A} (p : A → bool) range x :
  In x range → p x = false → (count_if p range < length range)%nat.
Proof.
  induction range as [|y range IH]; simpl; [done|].
  intros [->|Hin] Hx.
  - rewrite Hx. pose proof (count_if_le p range). lia.
  - specialize (IH Hin Hx). destruct (p y); lia.
Qed.

(** [std::transform] into a buffer that has room for the whole source
    overwrites exactly the positions from [pos] on. *)
Lemma transform_fmap {A B} (f : A → B) src : ∀ out pos,
  length out = (pos + length src)%nat →
  transform f src out pos = take pos out ++ (f <$> src).
Proof.
  induction src as [|x src IH]; intros out pos Hlen; simpl in *.
  - rewrite app_nil_r, take_ge; [done|lia].
  - rewrite IH by (rewrite length_insert; lia).
    rewrite (take_S_r _ _ (f x)) by (apply list_lookup_insert_eq; lia).
    rewrite take_insert_ge by lia. by rewrite <- app_assoc.
Qed.

Lemma transform_irange (f : EdgeID → bool) (n : N) :
  transform f (irange 0 n) (replicate (N.to_nat n) false) 0
  = f <$> irange 0 n.
Proof.
  rewrite transform_fmap; [done|].
  rewrite length_replicate, irange_length. lia.
Qed.

(** ** Checks on the examples *)

Example static_pred_example :
  StaticFiltered.FilteredGraphImpl_pred (triangle 1 1 1) (λ e, e =? 1)
  = {| StaticFiltered.graph := triangle 1 1 1;
       StaticFiltered.edge_filter := [false; true; false] |}.
Proof. reflexivity. Qed.

Example static_vector_wrong_size :
  StaticFiltered.FilteredGraphImpl_vector (triangle 1 1 1) [true] = None.
Proof. reflexivity. Qed.

Example static_masked_degree :
  StaticFiltered.GetOutDegree static_masked 0 = 1
  ∧ StaticFiltered.GetAdjacentEdgeRange static_masked 0 = [0]
  ∧ StaticFiltered.GetNumberOfEdges static_masked = 3.
Proof. by vm_compute. Qed.

Example static_masked_accessors :
  StaticFiltered.GetTarget static_masked 1 = None
  ∧ StaticFiltered.GetTarget static_masked 2 = Some 2
  ∧ StaticFiltered.GetEdgeData static_masked 0 = Some 1%Z.
Proof. by vm_compute. Qed.

Example static_masked_FindEdge :
  StaticFiltered.FindEdge (GT := static_GetTarge_reading) static_masked 0 2
  = SPECIAL_EDGEID
  ∧ StaticFiltered.FindEdge (GT := static_GetTarge_reading) static_masked 0 1
    = 0.
Proof. by vm_compute. Qed.

Example static_either_direction :
  StaticFiltered.FindEdgeInEitherDirection (GT := static_GetTarge_reading)
    (static_example 1 1 1) 2 1 = 2
  ∧ StaticFiltered.FindEdgeInEitherDirection (GT := static_GetTarge_reading)
      (static_example 1 1 1) 1 2 = 2.
Proof. by vm_compute. Qed.

Example static_indicate_reverse :
  StaticFiltered.FindEdgeIndicateIfReverse (GT := static_GetTarge_reading)
    (static_example 1 1 1) 2 1 false = (2, true)
  ∧ StaticFiltered.FindEdgeIndicateIfReverse (GT := static_GetTarge_reading)
      (static_example 1 1 1) 1 2 false = (2, false)
  ∧ StaticFiltered.FindEdgeIndicateIfReverse (GT := static_GetTarge_reading)
      (static_example 1 1 1) 1 2 true = (2, true).
Proof. by vm_compute. Qed.

Example static_smallest_of_parallel :
  StaticFiltered.FindSmallestEdge
    {| StaticFiltered.graph := parallel 5 3 3;
       StaticFiltered.edge_filter := [true; true; true] |} 0 1 (λ _, true)
  = Some 1
  ∧ StaticFiltered.FindSmallestEdge
      {| StaticFiltered.graph := parallel 5 3 3;
         StaticFiltered.edge_filter := [true; false; true] |} 0 1 (λ _, true)
    = Some 2
  ∧ StaticFiltered.FindSmallestEdge
      {| StaticFiltered.graph := parallel 5 3 3;
         StaticFiltered.edge_filter := [true; true; true] |} 0 1
      (λ w, 4 <? w)%Z
    = Some 0.
Proof. by vm_compute. Qed.

Example dynamic_without_2_bits :
  DynamicFiltered.filter_bit dynamic_without_2 <$> [0; 1; 2]
  = [true; false; false]
  ∧ DynamicFiltered.GetAdjacentEdgeRange dynamic_without_2 <$> [0; 1; 2]
    = [[0; 1]; [2]; []]
  ∧ DynamicFiltered.GetTarget dynamic_without_2 <$> [0; 1; 2] = [1; 2; 2].
Proof. by vm_compute. Qed.

Example dynamic_all_valid_bits :
  DynamicFiltered.filter_bit dynamic_all_valid <$> [0; 1; 2]
  = [true; true; true]
  ∧ DynamicFiltered.GetAdjacentEdgeRange dynamic_all_valid <$> [0; 1; 2]
    = [[]; []; []].
Proof. by vm_compute. Qed.


(** ** The scan of FindEdge

    [range] is the adjacency that the view shows and [GetTarge] the function
    that the scan calls. *)

Section ScanFacts.
Context `{Typedefs}.
Variable range : NodeID → list EdgeID.
Variable GetTarge : EdgeID → NodeID.





Hypothesis sentinels_agree : SPECIAL_NODEID = SPECIAL_EDGEID.


Hypothesis range_free : ∀ n e, In e (range n) → e ≠ SPECIAL_EDGEID.





End ScanFacts.

(** ** The loop of FindSmallestEdge

    [tgt] and [dat] are the target and data of the store; on the edges of
    the list the accessors return them without tripping their assertion. *)

Section SmallestFacts.
Context `{Typedefs} {EdgeDataT : Type} `{HasWeight EdgeDataT}.
Variable GetTarget : EdgeID → option NodeID.
Variable GetEdgeData : EdgeID → option EdgeDataT.
Variable tgt : EdgeID → NodeID.
Variable dat : EdgeID → EdgeDataT.

Lemma FindSmallestEdge_loop_spec to filter l : ∀ e0 w0,
  (∀ e, In e l → GetTarget e = Some (tgt e)) →
  (∀ e, In e l → GetEdgeData e = Some (dat e)) →
  ∃ r, FindSmallestEdge_loop GetTarget GetEdgeData to filter l e0 w0 = Some r
    ∧ ((r = e0
        ∧ ∀ e, In e l → tgt e = to → filter (dat e) = true →
               (w0 ≤ weight (dat e))%Z)
       ∨ (In r l ∧ tgt r = to ∧ filter (dat r) = true
          ∧ (weight (dat r) < w0)%Z
          ∧ ∀ e, In e l → tgt e = to → filter (dat e) = true →
                 (weight (dat r) ≤ weight (dat e))%Z)).
Proof.
  induction l as [|x l IH]; intros e0 w0 Ht Hd; simpl.
  { exists e0. split; [done|]. left. split; [done|]. intros e []. }
  rewrite (Ht x), (Hd x) by (by left). simpl.
  assert (Ht' : ∀ e, In e l → GetTarget e = Some (tgt e))
    by (intros e He; apply Ht; by right).
  assert (Hd' : ∀ e, In e l → GetEdgeData e = Some (dat e))
    by (intros e He; apply Hd; by right).
  destruct (bool_decide (tgt x = to) && (weight (dat x) <? w0)%Z
            && filter (dat x)) eqn:Hc.
  - apply andb_true_iff in Hc as [[Hxt%bool_decide_eq_true Hxw%Z.ltb_lt]%andb_true_iff Hxf].
    destruct (IH x (weight (dat x)) Ht' Hd') as (r & -> & [[-> Hmin]|Hr]).
    + exists x. split; [done|]. right. split_and!; [by left|done..|].
      intros e [->|He] ? ?; [lia|by apply Hmin].
    + destruct Hr as (Hin & Hrt & Hrf & Hrw & Hmin).
      exists r. split; [done|]. right. split_and!; [by right|done|done|lia|].
      intros e [->|He] ? ?; [lia|by apply Hmin].
  - assert (Hx : tgt x = to → filter (dat x) = true → (w0 ≤ weight (dat x))%Z).
    { intros Hxt Hxf. rewrite Hxf, andb_true_r in Hc.
      apply andb_false_iff in Hc as [Hc%bool_decide_eq_false|Hc%Z.ltb_ge];
        [done|lia]. }
    destruct (IH e0 w0 Ht' Hd') as (r & -> & [[-> Hmin]|Hr]).
    + exists e0. split; [done|]. left. split; [done|].
      intros e [->|He] ? ?; [by apply Hx|by apply Hmin].
    + destruct Hr as (Hin & Hrt & Hrf & Hrw & Hmin).
      exists r. split; [done|]. right. split_and!; [by right|done..|].
      intros e [->|He] Het Hef; [specialize (Hx Het Hef); lia|by apply Hmin].
Qed.

Lemma FindSmallestEdge_loop_first to filter l : ∀ e0 w0,
  (∀ e, In e l → GetTarget e = Some (tgt e)) →
  (∀ e, In e l → GetEdgeData e = Some (dat e)) →
  let fits e := tgt e = to ∧ filter (dat e) = true in
  ∃ r, FindSmallestEdge_loop GetTarget GetEdgeData to filter l e0 w0 = Some r
    ∧ ((r = e0 ∧ ∀ e, In e l → fits e → (w0 ≤ weight (dat e))%Z)
       ∨ (∃ l1 l2, l = l1 ++ r :: l2 ∧ fits r ∧ (weight (dat r) < w0)%Z
            ∧ (∀ e, In e l1 → fits e → (weight (dat r) < weight (dat e))%Z)
            ∧ (∀ e, In e l2 → fits e → (weight (dat r) ≤ weight (dat e))%Z))).
Proof.
  induction l as [|x l IH]; intros e0 w0 Ht Hd fits; simpl.
  { exists e0. split; [done|]. left. split; [done|]. intros e []. }
  rewrite (Ht x), (Hd x) by (by left). simpl.
  assert (Ht' : ∀ e, In e l → GetTarget e = Some (tgt e))
    by (intros e He; apply Ht; by right).
  assert (Hd' : ∀ e, In e l → GetEdgeData e = Some (dat e))
    by (intros e He; apply Hd; by right).
  destruct (bool_decide (tgt x = to) && (weight (dat x) <? w0)%Z
            && filter (dat x)) eqn:Hc.
  - apply andb_true_iff in Hc
      as [[Hxt%bool_decide_eq_true Hxw%Z.ltb_lt]%andb_true_iff Hxf].
    destruct (IH x (weight (dat x)) Ht' Hd') as (r & -> & [[-> Hmin]|Hr]).
    + exists x. split; [done|]. right. exists [], l.
      split_and!; [done..| |done]. intros ? [].
    + destruct Hr as (l1 & l2 & -> & Hfit & Hrw & Hl1 & Hl2).
      exists r. split; [done|]. right. exists (x :: l1), l2.
      split_and!; [done|done|lia| |done].
      intros e [<-|He] ?; [done|by apply Hl1].
  - assert (Hx : fits x → (w0 ≤ weight (dat x))%Z).
    { intros [Hxt Hxf]. rewrite Hxf, andb_true_r in Hc.
      apply andb_false_iff in Hc as [Hc%bool_decide_eq_false|Hc%Z.ltb_ge];
        [done|lia]. }
    destruct (IH e0 w0 Ht' Hd') as (r & -> & [[-> Hmin]|Hr]).
    + exists e0. split; [done|]. left. split; [done|].
      intros e [<-|He] ?; [by apply Hx|by apply Hmin].
    + destruct Hr as (l1 & l2 & -> & Hfit & Hrw & Hl1 & Hl2).
      exists r. split; [done|]. right. exists (x :: l1), l2.
      split_and!; [done..| |done].
      intros e [<-|He] Hfe; [specialize (Hx Hfe); lia|by apply Hl1].
Qed.

End SmallestFacts.

Lemma FindSmallestEdge_spec {td : Typedefs} {D} {HW : HasWeight D}
    (range : NodeID → list EdgeID) (GetTarget : EdgeID → option NodeID)
    (GetEdgeData : EdgeID → option D) (tgt : EdgeID → NodeID)
    (dat : EdgeID → D) (from to : NodeID) (filter : D → bool) :
  (∀ n e, In e (range n) → GetTarget e = Some (tgt e)) →
  (∀ n e, In e (range n) → GetEdgeData e = Some (dat e)) →
  let fits e := In e (range from) ∧ tgt e = to ∧ filter (dat e) = true in
  ∃ r, FindSmallestEdge range GetTarget GetEdgeData from to filter = Some r
       ∧ ((∃ e, fits e ∧ (weight (dat e) < INVALID_EDGE_WEIGHT)%Z) →
          fits r ∧ (weight (dat r) < INVALID_EDGE_WEIGHT)%Z
          ∧ ∀ e, fits e → (weight (dat r) ≤ weight (dat e))%Z)
       ∧ ((¬ ∃ e, fits e ∧ (weight (dat e) < INVALID_EDGE_WEIGHT)%Z) →
          r = SPECIAL_EDGEID).
Proof.
  intros Ht Hd fits.
  destruct (FindSmallestEdge_loop_spec GetTarget GetEdgeData tgt dat to filter
              (range from) SPECIAL_EDGEID INVALID_EDGE_WEIGHT
              (Ht from) (Hd from)) as (r & Hr & [[-> Hall]|Hfound]).
  - exists SPECIAL_EDGEID. split_and!; [done| |done].
    intros (e & (Hin & Het & Hef) & Hlt).
    specialize (Hall e Hin Het Hef). lia.
  - destruct Hfound as (Hin & Hrt & Hrf & Hrw & Hmin).
    exists r. split_and!; [done| |].
    + intros _. split_and!; [done..|].
      intros e (? & ? & ?). by apply Hmin.
    + intros Hno. exfalso. apply Hno. by exists r.
Qed.

(** ** The static view meets the assumptions of the loop *)

Lemma static_GetTarget_range {D} (v : StaticFiltered.FilteredGraphImpl D) n e :
  In e (StaticFiltered.GetAdjacentEdgeRange v n) →
  StaticFiltered.GetTarget v e
  = Some (Graph.GetTarget (StaticFiltered.graph v) e).
Proof.
  intros [_ Hbit]%In_filtered. unfold StaticFiltered.GetTarget.
  by rewrite Hbit.
Qed.

Lemma static_GetEdgeData_range {D} (v : StaticFiltered.FilteredGraphImpl D) n e :
  In e (StaticFiltered.GetAdjacentEdgeRange v n) →
  StaticFiltered.GetEdgeData v e
  = Some (Graph.GetEdgeData (StaticFiltered.graph v) e).
Proof.
  intros [_ Hbit]%In_filtered. unfold StaticFiltered.GetEdgeData.
  by rewrite Hbit.
Qed.

Lemma static_unmasked_edge {D} (v : StaticFiltered.FilteredGraphImpl D)
    from to e :
  StaticFiltered.unmasked_edge v from to e ↔
  In e (StaticFiltered.GetAdjacentEdgeRange v from)
  ∧ Graph.GetTarget (StaticFiltered.graph v) e = to.
Proof.
  unfold StaticFiltered.unmasked_edge, StaticFiltered.GetAdjacentEdgeRange.
  rewrite In_filtered. tauto.
Qed.

Lemma static_eligible {D} (v : StaticFiltered.FilteredGraphImpl D)
    from to filter e :
  StaticFiltered.eligible v from to filter e ↔
  In e (StaticFiltered.GetAdjacentEdgeRange v from)
  ∧ Graph.GetTarget (StaticFiltered.graph v) e = to
  ∧ filter (Graph.GetEdgeData (StaticFiltered.graph v) e) = true.
Proof.
  unfold StaticFiltered.eligible. rewrite static_unmasked_edge. tauto.
Qed.

(** ** The constructors of the static view *)

Lemma static_pred_eq {D} (g : Graph.t D) (f : EdgeID → bool) :
  StaticFiltered.FilteredGraphImpl_pred g f
  = {| StaticFiltered.graph := g;
       StaticFiltered.edge_filter := f <$> irange 0 (Graph.GetNumberOfEdges g) |}.
Proof.
  unfold StaticFiltered.FilteredGraphImpl_pred. by rewrite transform_irange.
Qed.

Lemma static_vector_Some {D} (g : Graph.t D) (mask : list bool) v :
  StaticFiltered.FilteredGraphImpl_vector g mask = Some v ↔
  N.of_nat (length mask) = Graph.GetNumberOfEdges g
  ∧ v = {| StaticFiltered.graph := g; StaticFiltered.edge_filter := mask |}.
Proof.
  unfold StaticFiltered.FilteredGraphImpl_vector. simpl.
  case_bool_decide as Hlen; simpl.
  - split; [by intros [= <-]|by intros [_ ->]].
  - split; [done|by intros [? _]].
Qed.

(** C1. The static view built from [(g, f)] and the static view built from
    [g] and the vector [f(0), ..., f(edgeCount - 1)] report the same
    [GetOutDegree(n)] and the same [GetAdjacentEdgeRange(n)] for every node
    [n]; the vector passes the size assertion of its constructor. *)
Theorem masking_idempotent {D} (g : Graph.t D) (f : EdgeID → bool) :
  let mask := f <$> irange 0 (Graph.GetNumberOfEdges g) in
  ∃ w, StaticFiltered.FilteredGraphImpl_vector g mask = Some w
       ∧ ∀ n,
           StaticFiltered.GetOutDegree
             (StaticFiltered.FilteredGraphImpl_pred g f) n
           = StaticFiltered.GetOutDegree w n
           ∧ StaticFiltered.GetAdjacentEdgeRange
               (StaticFiltered.FilteredGraphImpl_pred g f) n
             = StaticFiltered.GetAdjacentEdgeRange w n.
Proof.
  intros mask. eexists. split.
  - apply static_vector_Some. split; [|done].
    unfold mask. rewrite length_fmap, irange_length. lia.
  - intros n. by rewrite static_pred_eq.
Qed.

(** C3. Every static view that exists after construction, by the vector
    constructor (whose assertion has passed) or by the predicate
    constructor, and after any sequence of renumberings and writes to edge
    data, has an edge filter whose size is the number of edges of its
    graph.  The renumbering of the graph keeps the number of edges. *)
Theorem edge_filter_size_invariant {D} (graph_Renumber : Graph.renumbering)
    (v : StaticFiltered.FilteredGraphImpl D) :
  (∀ D' (g : Graph.t D') old_to_new_node,
     Graph.GetNumberOfEdges (graph_Renumber D' g old_to_new_node)
     = Graph.GetNumberOfEdges g) →
  StaticFiltered.constructed graph_Renumber v →
  N.of_nat (length (StaticFiltered.edge_filter v))
  = StaticFiltered.GetNumberOfEdges v.
Proof.
  intros Hkeep Hv. unfold StaticFiltered.GetNumberOfEdges.
  induction Hv as [g mask v Hv|g f|v perm _ IH|v e d v' _ IH Hv'].
  - by apply static_vector_Some in Hv as [? ->].
  - rewrite static_pred_eq. simpl. rewrite length_fmap, irange_length. lia.
  - simpl. by rewrite Hkeep.
  - unfold StaticFiltered.SetEdgeData in Hv'.
    destruct (at_index _ e); simpl in Hv'; [|done].
    by injection Hv' as <-.
Qed.

Lemma edge_filter_size_invariant_witness :
  N.of_nat
    (length
       (StaticFiltered.edge_filter
          (StaticFiltered.Renumber relabel_targets
             (StaticFiltered.FilteredGraphImpl_pred (triangle 1 1 1)
                (λ e, e =? 1))
             [2; 1; 0])))
  = 3.
Proof.
  apply (edge_filter_size_invariant relabel_targets).
  - reflexivity.
  - apply StaticFiltered.constructed_Renumber,
      StaticFiltered.constructed_pred.
Defined.

(** ** Renumber *)

(** C9. [Renumber] of the static view renumbers the graph with the given
    permutation and leaves the edge filter as it was, so that the adjacency
    of the renumbered graph is filtered with the old bits; [Renumber] of the
    dynamic view is the renumbering of its graph. *)
Theorem Renumber_leaves_filter {D} (graph_Renumber : Graph.renumbering)
    (vs : StaticFiltered.FilteredGraphImpl D)
    (vd : DynamicFiltered.FilteredGraphImpl D)
    (old_to_new_node : list NodeID) :
  (StaticFiltered.graph
     (StaticFiltered.Renumber graph_Renumber vs old_to_new_node)
   = graph_Renumber _ (StaticFiltered.graph vs) old_to_new_node
   ∧ StaticFiltered.edge_filter
       (StaticFiltered.Renumber graph_Renumber vs old_to_new_node)
     = StaticFiltered.edge_filter vs
   ∧ ∀ n, StaticFiltered.GetAdjacentEdgeRange
            (StaticFiltered.Renumber graph_Renumber vs old_to_new_node) n
          = filtered (at_index (StaticFiltered.edge_filter vs))
              (Graph.GetAdjacentEdgeRange
                 (graph_Renumber _ (StaticFiltered.graph vs) old_to_new_node)
                 n))
  ∧ DynamicFiltered.Renumber graph_Renumber vd old_to_new_node
    = {| DynamicFiltered.graph :=
           graph_Renumber _ (DynamicFiltered.graph vd) old_to_new_node |}.
Proof. done. Qed.

(** ** GetNumberOfEdges *)

Lemma count_if_app {A} (p : A → bool) l k :
  count_if p (l ++ k) = (count_if p l + count_if p k)%nat.
Proof. induction l as [|x l IH]; simpl; [done|]. rewrite IH. lia. Qed.

(** Summing the unsigned per-node counts gives the count over all
    adjacency entries, as long as their number fits in 32 bits. *)
Lemma total_count (p : EdgeID → bool) (r : NodeID → list EdgeID) nodes :
  N.of_nat (length (concat (r <$> nodes))) < 2 ^ 32 →
  foldr N.add 0 ((λ n, to_unsigned (N.of_nat (count_if p (r n)))) <$> nodes)
  = N.of_nat (count_if p (concat (r <$> nodes))).
Proof.
  induction nodes as [|n nodes IH]; csimpl; [done|].
  rewrite length_app. intros Hlen.
  rewrite IH, count_if_app by lia.
  unfold to_unsigned. rewrite N.mod_small; [lia|].
  pose proof (count_if_le p (r n)). lia.
Qed.

Lemma static_total_out_degree {D} (v : StaticFiltered.FilteredGraphImpl D) :
  N.of_nat (length (Graph.all_edges (StaticFiltered.graph v))) < 2 ^ 32 →
  StaticFiltered.total_out_degree v
  = N.of_nat (count_if (at_index (StaticFiltered.edge_filter v))
                (Graph.all_edges (StaticFiltered.graph v))).
Proof. apply total_count. Qed.
(** ** The constructor of the dynamic view *)

Section DynamicConstructor.
Context {D : Type}.
Variable p : NodeID → bool.

#[local] Abbreviation store := (Graph.t (DynamicFiltered.EdgeDataWithFilter D)).

Lemma mark_edges_structure b l : ∀ g : store,
  Graph.GetAdjacentEdgeRange (DynamicFiltered.mark_edges p b g l)
  = Graph.GetAdjacentEdgeRange g
  ∧ Graph.GetTarget (DynamicFiltered.mark_edges p b g l) = Graph.GetTarget g
  ∧ Graph.GetNumberOfNodes (DynamicFiltered.mark_edges p b g l)
    = Graph.GetNumberOfNodes g
  ∧ Graph.GetNumberOfEdges (DynamicFiltered.mark_edges p b g l)
    = Graph.GetNumberOfEdges g.
Proof.
  induction l as [|x l IH]; intros g; [done|].
  simpl. destruct (IH (DynamicFiltered.set_filter g x (b && p (Graph.GetTarget g x))))
    as (-> & -> & -> & ->).
  done.
Qed.

Lemma mark_edges_data b l e : ∀ g : store,
  DynamicFiltered.data
    (Graph.GetEdgeData (DynamicFiltered.mark_edges p b g l) e)
  = DynamicFiltered.data (Graph.GetEdgeData g e).
Proof.
  induction l as [|x l IH]; intros g; [done|].
  simpl. rewrite IH. simpl. by case_decide; subst.
Qed.

Lemma mark_edges_untouched b l e : ∀ g : store,
  ¬ In e l →
  DynamicFiltered.filter
    (Graph.GetEdgeData (DynamicFiltered.mark_edges p b g l) e)
  = DynamicFiltered.filter (Graph.GetEdgeData g e).
Proof.
  induction l as [|x l IH]; intros g Hnot; [done|].
  simpl. rewrite IH by (intros ?; apply Hnot; by right).
  simpl. rewrite decide_False; [done|]. intros ->. apply Hnot. by left.
Qed.

Lemma mark_edges_marked b l e : ∀ g : store,
  In e l →
  DynamicFiltered.filter
    (Graph.GetEdgeData (DynamicFiltered.mark_edges p b g l) e)
  = b && p (Graph.GetTarget g e).
Proof.
  induction l as [|x l IH]; intros g Hin; [done|].
  simpl. destruct (in_dec N.eq_dec e l) as [Hl|Hl].
  - by rewrite IH.
  - rewrite mark_edges_untouched by done.
    destruct Hin as [->|]; [|done]. simpl. by rewrite decide_True.
Qed.

Lemma mark_nodes_structure nodes : ∀ g : store,
  Graph.GetAdjacentEdgeRange (DynamicFiltered.mark_nodes p g nodes)
  = Graph.GetAdjacentEdgeRange g
  ∧ Graph.GetTarget (DynamicFiltered.mark_nodes p g nodes) = Graph.GetTarget g
  ∧ Graph.GetNumberOfNodes (DynamicFiltered.mark_nodes p g nodes)
    = Graph.GetNumberOfNodes g
  ∧ Graph.GetNumberOfEdges (DynamicFiltered.mark_nodes p g nodes)
    = Graph.GetNumberOfEdges g.
Proof.
  induction nodes as [|n nodes IH]; intros g; [done|].
  simpl. destruct (IH (DynamicFiltered.mark_edges p (p n) g
                         (Graph.GetAdjacentEdgeRange g n)))
    as (-> & -> & -> & ->).
  apply mark_edges_structure.
Qed.

Lemma mark_nodes_data nodes e : ∀ g : store,
  DynamicFiltered.data
    (Graph.GetEdgeData (DynamicFiltered.mark_nodes p g nodes) e)
  = DynamicFiltered.data (Graph.GetEdgeData g e).
Proof.
  induction nodes as [|n nodes IH]; intros g; [done|].
  simpl. rewrite IH. apply mark_edges_data.
Qed.

Lemma mark_nodes_untouched nodes e : ∀ g : store,
  (∀ n, In n nodes → ¬ In e (Graph.GetAdjacentEdgeRange g n)) →
  DynamicFiltered.filter
    (Graph.GetEdgeData (DynamicFiltered.mark_nodes p g nodes) e)
  = DynamicFiltered.filter (Graph.GetEdgeData g e).
Proof.
  induction nodes as [|n nodes IH]; intros g Hnot; [done|].
  simpl. rewrite IH.
  - apply mark_edges_untouched, Hnot. by left.
  - intros n' Hn'. rewrite (proj1 (mark_edges_structure _ _ _)).
    apply Hnot. by right.
Qed.

Lemma mark_nodes_marked nodes s e : ∀ g : store,
  NoDup (concat (Graph.GetAdjacentEdgeRange g <$> nodes)) →
  In s nodes → In e (Graph.GetAdjacentEdgeRange g s) →
  DynamicFiltered.filter
    (Graph.GetEdgeData (DynamicFiltered.mark_nodes p g nodes) e)
  = p s && p (Graph.GetTarget g e).
Proof.
  induction nodes as [|n nodes IH]; intros g Hnodup Hs He; [done|].
  simpl in Hnodup. apply NoDup_app in Hnodup as (_ & Hdisj & Hrest).
  simpl.
  set (g' := DynamicFiltered.mark_edges p (p n) g
               (Graph.GetAdjacentEdgeRange g n)).
  destruct (mark_edges_structure (p n) (Graph.GetAdjacentEdgeRange g n) g)
    as (Hrange & Htgt & _).
  fold g' in Hrange, Htgt.
  destruct (in_dec N.eq_dec e (Graph.GetAdjacentEdgeRange g n)) as [Hn|Hn].
  - assert (s = n) as ->.
    { destruct Hs as [<-|Hs]; [done|]. exfalso.
      apply (Hdisj e); [by apply list_elem_of_In|].
      apply list_elem_of_In, in_concat.
      exists (Graph.GetAdjacentEdgeRange g s). split; [|done].
      apply in_map_iff. by exists s. }
    rewrite mark_nodes_untouched.
    + by apply mark_edges_marked.
    + intros n' Hn' Hin. rewrite Hrange in Hin.
      apply (Hdisj e); [by apply list_elem_of_In|].
      apply list_elem_of_In, in_concat.
      exists (Graph.GetAdjacentEdgeRange g n'). split; [|done].
      apply in_map_iff. by exists n'.
  - destruct Hs as [<-|Hs]; [done|].
    rewrite (IH g'); [by rewrite Htgt|by rewrite Hrange..|done|by rewrite Hrange].
Qed.

End DynamicConstructor.

Lemma dynamic_pred_structure {D} (g : Graph.t D) (p : NodeID → bool) :
  let v := DynamicFiltered.FilteredGraphImpl_pred g p in
  Graph.GetAdjacentEdgeRange (DynamicFiltered.graph v)
  = Graph.GetAdjacentEdgeRange g
  ∧ Graph.GetTarget (DynamicFiltered.graph v) = Graph.GetTarget g
  ∧ Graph.GetNumberOfNodes (DynamicFiltered.graph v)
    = Graph.GetNumberOfNodes g
  ∧ Graph.GetNumberOfEdges (DynamicFiltered.graph v)
    = Graph.GetNumberOfEdges g.
Proof.
  simpl.
  destruct (mark_nodes_structure p (irange 0 (Graph.GetNumberOfNodes g))
              (Graph.Transform DynamicFiltered.EdgeDataWithFilter_of g))
    as (-> & -> & -> & ->).
  done.
Qed.

Lemma dynamic_pred_data {D} (g : Graph.t D) (p : NodeID → bool) e :
  DynamicFiltered.data
    (Graph.GetEdgeData
       (DynamicFiltered.graph (DynamicFiltered.FilteredGraphImpl_pred g p)) e)
  = Graph.GetEdgeData g e.
Proof. simpl. by rewrite mark_nodes_data. Qed.

Lemma dynamic_pred_filter {D} (g : Graph.t D) (p : NodeID → bool) s e :
  NoDup (Graph.all_edges g) →
  s < Graph.GetNumberOfNodes g →
  In e (Graph.GetAdjacentEdgeRange g s) →
  DynamicFiltered.filter_bit (DynamicFiltered.FilteredGraphImpl_pred g p) e
  = p s && p (Graph.GetTarget g e).
Proof.
  intros Hnodup Hs He. unfold DynamicFiltered.filter_bit. simpl.
  rewrite (mark_nodes_marked p _ s); [done|done| |done].
  apply In_irange. lia.
Qed.

Lemma triangle_NoDup w0 w1 w2 : NoDup (Graph.all_edges (triangle w0 w1 w2)).
Proof. apply (bool_decide_unpack (NoDup _)). by vm_compute. Qed.


(** ** GetNumberOfEdges *)

(** C10. [GetNumberOfEdges] of a view is the number of edges of its graph,
    whatever the filter.  For the static view, when that number is the
    number of adjacency entries of the graph (and fits in 32 bits), the sum
    of [GetOutDegree] over all nodes never exceeds [GetNumberOfEdges], and
    is strictly smaller as soon as one adjacency entry is masked.  The
    dynamic class has no [GetOutDegree]; its [GetNumberOfEdges] is the edge
    count of the graph the view was built from, whatever the predicate, and
    setting or clearing the filter bit of an edge does not change it. *)
Theorem GetNumberOfEdges_counts_masked {Ds Dd}
    (vs : StaticFiltered.FilteredGraphImpl Ds)
    (vd : DynamicFiltered.FilteredGraphImpl Dd)
    (g : Graph.t Dd) (p : NodeID → bool) (e : EdgeID) (b : bool) :
  N.of_nat (length (Graph.all_edges (StaticFiltered.graph vs)))
  = Graph.GetNumberOfEdges (StaticFiltered.graph vs) →
  Graph.GetNumberOfEdges (StaticFiltered.graph vs) < 2 ^ 32 →
  (StaticFiltered.GetNumberOfEdges vs
   = Graph.GetNumberOfEdges (StaticFiltered.graph vs)
   ∧ StaticFiltered.total_out_degree vs ≤ StaticFiltered.GetNumberOfEdges vs
   ∧ ((∃ e, In e (Graph.all_edges (StaticFiltered.graph vs))
            ∧ at_index (StaticFiltered.edge_filter vs) e = false) →
      StaticFiltered.total_out_degree vs < StaticFiltered.GetNumberOfEdges vs))
  ∧ (DynamicFiltered.GetNumberOfEdges vd
     = Graph.GetNumberOfEdges (DynamicFiltered.graph vd)
     ∧ DynamicFiltered.GetNumberOfEdges
         (DynamicFiltered.FilteredGraphImpl_pred g p)
       = Graph.GetNumberOfEdges g
     ∧ DynamicFiltered.GetNumberOfEdges
         {| DynamicFiltered.graph :=
              DynamicFiltered.set_filter (DynamicFiltered.graph vd) e b |}
       = DynamicFiltered.GetNumberOfEdges vd).
Proof.
  intros Hs Hs32. split.
  - unfold StaticFiltered.GetNumberOfEdges.
    rewrite static_total_out_degree, <- Hs by (by rewrite Hs).
    split_and!; [done| |].
    + pose proof (count_if_le (at_index (StaticFiltered.edge_filter vs))
                    (Graph.all_edges (StaticFiltered.graph vs))). lia.
    + intros (e' & Hin & Hbit).
      pose proof (count_if_lt _ _ e' Hin Hbit). lia.
  - split_and!; [done| |done].
    by destruct (dynamic_pred_structure g p) as (_ & _ & _ & ?).
Qed.

Lemma GetNumberOfEdges_counts_masked_witness :
  (StaticFiltered.GetNumberOfEdges static_masked = 3
   ∧ StaticFiltered.total_out_degree static_masked < 3)
  ∧ DynamicFiltered.GetNumberOfEdges dynamic_without_2 = 3.
Proof.
  destruct (GetNumberOfEdges_counts_masked static_masked dynamic_without_2
              (with_filter_member (triangle 1 1 1) (λ _, true))
              (λ n, negb (n =? 2)) 0 false)
    as [(Hs & _ & Hs') (_ & Hd & _)]; [reflexivity..|].
  split; [split; [done|]|exact Hd].
  apply Hs'. exists 1. vm_compute. tauto.
Defined.

(** ** The dynamic view and the predicate it was built from *)

(** C2 (the code departs from the claim).  The dynamic view of the triangle
    built with a predicate that rejects node 2, over edge data whose
    [filter] member is true, has the filter bit of the edge 1: 0->2 cleared
    by the constructor and still returns that edge from
    [GetAdjacentEdgeRange(0)]; built with a predicate that accepts every
    node, over edge data whose [filter] member is false, it returns no edge
    at all. *)
Theorem dynamic_range_shows_rejected_node :
  negb (0 =? 2) = true
  ∧ negb (2 =? 2) = false
  ∧ Graph.GetTarget (DynamicFiltered.graph dynamic_without_2) 1 = 2
  ∧ DynamicFiltered.filter_bit dynamic_without_2 1 = false
  ∧ DynamicFiltered.GetAdjacentEdgeRange dynamic_without_2 0 = [0; 1]
  ∧ DynamicFiltered.filter_bit dynamic_all_valid 0 = true
  ∧ DynamicFiltered.GetAdjacentEdgeRange dynamic_all_valid 0 = [].
Proof. by vm_compute. Qed.

(** C8 (the code departs from the claim).  The accessors of the dynamic
    view carry no assertion that compiles: on the edge 1 of the view built
    with a predicate that rejects node 2, whose filter bit is cleared,
    [GetTarget] returns the target 2 and [GetEdgeData] returns the data. *)
Theorem dynamic_accessors_do_not_assert :
  DynamicFiltered.filter_bit dynamic_without_2 1 = false
  ∧ DynamicFiltered.GetTarget dynamic_without_2 1 = 2
  ∧ DynamicFiltered.GetEdgeData dynamic_without_2 1 = (1%Z, true).
Proof. by vm_compute. Qed.

(** C7 (the code departs from the claim).  With [GetTarge] resolved to
    [GetTarget], [FindEdge(0, 2)] of the dynamic view built with a predicate
    that rejects node 2 returns the edge 1, whose filter bit is cleared; and
    [FindEdge(0, 1)] of the view built with a predicate that accepts every
    node, over edge data whose [filter] member is false, returns the "no
    edge" id although the filter bit of the edge 0: 0->1 is set. *)
Theorem dynamic_FindEdge_returns_masked_edge :
  DynamicFiltered.FindEdge (GT := dynamic_GetTarge_reading)
    dynamic_without_2 0 2 = 1
  ∧ DynamicFiltered.filter_bit dynamic_without_2 1 = false
  ∧ DynamicFiltered.FindEdge (GT := dynamic_GetTarge_reading)
      dynamic_all_valid 0 1 = SPECIAL_EDGEID
  ∧ DynamicFiltered.filter_bit dynamic_all_valid 0 = true.
Proof. by vm_compute. Qed.

(** C6 (the code departs from the claim).  [FindSmallestEdge(0, 2, accept
    all)] of the dynamic view built with a predicate that rejects node 2
    returns the edge 1, whose filter bit is cleared; and
    [FindSmallestEdge(0, 1, accept all)] of the view built with a predicate
    that accepts every node, over edge data whose [filter] member is false,
    returns the "no edge" id although the edge 0: 0->1 has its filter bit
    set and a weight below [INVALID_EDGE_WEIGHT]. *)
Theorem dynamic_FindSmallestEdge_ignores_mask :
  DynamicFiltered.FindSmallestEdge dynamic_without_2 0 2 (λ _, true) = 1
  ∧ DynamicFiltered.filter_bit dynamic_without_2 1 = false
  ∧ DynamicFiltered.FindSmallestEdge dynamic_all_valid 0 1 (λ _, true)
    = SPECIAL_EDGEID
  ∧ DynamicFiltered.filter_bit dynamic_all_valid 0 = true
  ∧ (weight (DynamicFiltered.GetEdgeData dynamic_all_valid 0)
     < INVALID_EDGE_WEIGHT)%Z.
Proof. by vm_compute. Qed.

(** ** FindEdgeIndicateIfReverse *)






(** * Further properties of the filtered graphs *)

(** ** Degree and adjacency *)

Lemma filtered_sublist {A} (p : A → bool) range :
  filtered p range `sublist_of` range.
Proof.
  induction range as [|x range IH]; simpl; [constructor|].
  destruct (p x); by constructor.
Qed.

Lemma filtered_length_le {A} (p : A → bool) range :
  (length (filtered p range) ≤ length range)%nat.
Proof. apply sublist_length, filtered_sublist. Qed.

(** X1. When the adjacency of [n] in the store has fewer than 2^32 entries,
    [GetOutDegree(n)] of the static view is the number of edges that
    [GetAdjacentEdgeRange(n)] yields, and at most the out-degree of [n] in
    the store. *)
Theorem GetOutDegree_counts_range {D}
    (v : StaticFiltered.FilteredGraphImpl D) (n : NodeID) :
  N.of_nat (length (Graph.GetAdjacentEdgeRange (StaticFiltered.graph v) n))
  < 2 ^ 32 →
  StaticFiltered.GetOutDegree v n
  = N.of_nat (length (StaticFiltered.GetAdjacentEdgeRange v n))
  ∧ StaticFiltered.GetOutDegree v n
    ≤ N.of_nat
        (length (Graph.GetAdjacentEdgeRange (StaticFiltered.graph v) n)).
Proof.
  intros Hlen.
  unfold StaticFiltered.GetOutDegree, StaticFiltered.GetAdjacentEdgeRange,
    to_unsigned.
  rewrite count_if_filtered.
  set (k := length (filtered _ _)).
  assert (k ≤ length (Graph.GetAdjacentEdgeRange (StaticFiltered.graph v) n))%nat
    by apply filtered_length_le.
  rewrite N.mod_small by lia. lia.
Qed.

Lemma GetOutDegree_counts_range_witness :
  StaticFiltered.GetOutDegree static_masked 0
  = N.of_nat (length (StaticFiltered.GetAdjacentEdgeRange static_masked 0))
  ∧ StaticFiltered.GetOutDegree static_masked 0
    ≤ N.of_nat
        (length
           (Graph.GetAdjacentEdgeRange
              (StaticFiltered.graph static_masked) 0)).
Proof. apply (GetOutDegree_counts_range static_masked 0). reflexivity. Defined.

(** ** Which edge the scans pick *)






(** ** FindSmallestEdge of the static view *)

(** X18. [FindSmallestEdge(from, to, filter)] of the static view returns
    without a failed assertion.  If some unmasked edge from [from] to [to]
    satisfies the filter and weighs less than [INVALID_EDGE_WEIGHT], the
    result is such an edge and its weight is minimal among all unmasked
    edges from [from] to [to] that satisfy the filter; if no such edge
    weighs less than [INVALID_EDGE_WEIGHT], the result is the "no edge"
    id. *)
Theorem static_FindSmallestEdge_minimum {td : Typedefs} {D}
    {HW : HasWeight D} (v : StaticFiltered.FilteredGraphImpl D)
    (from to : NodeID) (filter : D → bool) :
  ∃ r, StaticFiltered.FindSmallestEdge v from to filter = Some r
       ∧ ((∃ e, StaticFiltered.eligible v from to filter e
                ∧ (StaticFiltered.edge_weight v e < INVALID_EDGE_WEIGHT)%Z) →
          StaticFiltered.eligible v from to filter r
          ∧ (StaticFiltered.edge_weight v r < INVALID_EDGE_WEIGHT)%Z
          ∧ ∀ e, StaticFiltered.eligible v from to filter e →
                 (StaticFiltered.edge_weight v r
                  ≤ StaticFiltered.edge_weight v e)%Z)
       ∧ ((¬ ∃ e, StaticFiltered.eligible v from to filter e
                  ∧ (StaticFiltered.edge_weight v e
                     < INVALID_EDGE_WEIGHT)%Z) →
          r = SPECIAL_EDGEID).
Proof.
  setoid_rewrite static_eligible.
  apply (FindSmallestEdge_spec _ _ _ _ _ from to filter
           (static_GetTarget_range v) (static_GetEdgeData_range v)).
Qed.

(** X4. When [FindSmallestEdge(from, to, filter)] of the static view
    returns an edge other than the "no edge" id, that edge sits in the
    filtered adjacency of [from], leads to [to] and satisfies the filter;
    every such edge before it in the adjacency is strictly heavier and every
    such edge after it is at least as heavy: among edges of equal minimal
    weight the first one is returned. *)
Theorem FindSmallestEdge_first_minimum {td : Typedefs} {D}
    {HW : HasWeight D} (v : StaticFiltered.FilteredGraphImpl D)
    (from to : NodeID) (filter : D → bool) (r : EdgeID) :
  StaticFiltered.FindSmallestEdge v from to filter = Some r →
  r ≠ SPECIAL_EDGEID →
  ∃ l1 l2,
    StaticFiltered.GetAdjacentEdgeRange v from = l1 ++ r :: l2
    ∧ StaticFiltered.eligible v from to filter r
    ∧ (∀ e, In e l1 → StaticFiltered.eligible v from to filter e →
            (StaticFiltered.edge_weight v r
             < StaticFiltered.edge_weight v e)%Z)
    ∧ (∀ e, In e l2 → StaticFiltered.eligible v from to filter e →
            (StaticFiltered.edge_weight v r
             ≤ StaticFiltered.edge_weight v e)%Z).
Proof.
  intros Hr Hne.
  pose proof (FindSmallestEdge_loop_first _ _ _ _ to filter _
                SPECIAL_EDGEID INVALID_EDGE_WEIGHT
                (static_GetTarget_range v from)
                (static_GetEdgeData_range v from)) as Hspec.
  cbv beta zeta in Hspec.
  destruct Hspec
    as (r' & Hr' & [[-> _]|(l1 & l2 & Hl & [Ht Hf] & _ & Hl1 & Hl2)]);
    unfold StaticFiltered.FindSmallestEdge, FindSmallestEdge in Hr;
    rewrite Hr' in Hr; injection Hr as <-; [done|].
  exists l1, l2. split_and!; [done| | |].
  - apply static_eligible. rewrite Hl, in_app_iff. simpl. tauto.
  - intros e He (_ & ? & ?)%static_eligible. by apply Hl1.
  - intros e He (_ & ? & ?)%static_eligible. by apply Hl2.
Qed.

Lemma FindSmallestEdge_first_minimum_witness :
  ∃ l1 l2,
    StaticFiltered.GetAdjacentEdgeRange (static_parallel 5 3 3) 0
    = l1 ++ 1 :: l2
    ∧ StaticFiltered.eligible (static_parallel 5 3 3) 0 1 (λ _, true) 1
    ∧ (∀ e, In e l1 →
            StaticFiltered.eligible (static_parallel 5 3 3) 0 1 (λ _, true) e →
            (StaticFiltered.edge_weight (static_parallel 5 3 3) 1
             < StaticFiltered.edge_weight (static_parallel 5 3 3) e)%Z)
    ∧ (∀ e, In e l2 →
            StaticFiltered.eligible (static_parallel 5 3 3) 0 1 (λ _, true) e →
            (StaticFiltered.edge_weight (static_parallel 5 3 3) 1
             ≤ StaticFiltered.edge_weight (static_parallel 5 3 3) e)%Z).
Proof.
  apply (FindSmallestEdge_first_minimum (td := typedefs32)
           (static_parallel 5 3 3) 0 1 (λ _, true) 1);
    (reflexivity || discriminate).
Defined.

(** ** The accessors of the static view on its adjacency *)

(** X19. For an entry [e] of the adjacency of [n] in the store:
    if [GetAdjacentEdgeRange(n)] of the static view yields [e], then
    [GetTarget(e)] and [GetEdgeData(e)] pass their assertion and return the
    target and the data that the store holds for [e]; if it does not yield
    [e], both fail their assertion. *)
Theorem static_range_passes_assertions {D}
    (v : StaticFiltered.FilteredGraphImpl D) (n : NodeID) (e : EdgeID) :
  In e (Graph.GetAdjacentEdgeRange (StaticFiltered.graph v) n) →
  (In e (StaticFiltered.GetAdjacentEdgeRange v n) →
   StaticFiltered.GetTarget v e
   = Some (Graph.GetTarget (StaticFiltered.graph v) e)
   ∧ StaticFiltered.GetEdgeData v e
     = Some (Graph.GetEdgeData (StaticFiltered.graph v) e))
  ∧ (¬ In e (StaticFiltered.GetAdjacentEdgeRange v n) →
     StaticFiltered.GetTarget v e = None
     ∧ StaticFiltered.GetEdgeData v e = None).
Proof.
  intros Hin. split.
  - intros He. split;
      [by eapply static_GetTarget_range|by eapply static_GetEdgeData_range].
  - intros Hnot.
    assert (at_index (StaticFiltered.edge_filter v) e = false) as Hbit.
    { destruct (at_index _ e) eqn:Hbit; [|done].
      exfalso. apply Hnot. by apply In_filtered. }
    unfold StaticFiltered.GetTarget, StaticFiltered.GetEdgeData.
    by rewrite Hbit.
Qed.

Lemma static_range_passes_assertions_witness :
  (In 1 (StaticFiltered.GetAdjacentEdgeRange static_masked 0) →
   StaticFiltered.GetTarget static_masked 1
   = Some (Graph.GetTarget (StaticFiltered.graph static_masked) 1)
   ∧ StaticFiltered.GetEdgeData static_masked 1
     = Some (Graph.GetEdgeData (StaticFiltered.graph static_masked) 1))
  ∧ (¬ In 1 (StaticFiltered.GetAdjacentEdgeRange static_masked 0) →
     StaticFiltered.GetTarget static_masked 1 = None
     ∧ StaticFiltered.GetEdgeData static_masked 1 = None).
Proof.
  apply (static_range_passes_assertions static_masked 0 1). simpl. tauto.
Defined.

(** ** What the constructors show *)

Lemma irange_lookup (n : N) (k : nat) :
  (k < N.to_nat n)%nat → irange 0 n !! k = Some (N.of_nat k).
Proof.
  intros Hk. unfold irange. rewrite list_lookup_fmap.
  rewrite lookup_seq_lt by lia. done.
Qed.

Lemma at_index_fmap_irange (f : EdgeID → bool) (n e : N) :
  e < n → at_index (f <$> irange 0 n) e = f e.
Proof.
  intros He. unfold at_index.
  rewrite list_lookup_fmap, irange_lookup by lia. simpl.
  by rewrite N2Nat.id.
Qed.

Lemma filtered_ext {A} (p q : A → bool) range :
  (∀ x, In x range → p x = q x) → filtered p range = filtered q range.
Proof.
  induction range as [|x range IH]; intros Heq; simpl; [done|].
  rewrite (Heq x) by (by left).
  rewrite IH by (intros y Hy; apply Heq; by right). done.
Qed.

(** X8. In the static view built from a graph [g], whose adjacency entries
    are edge ids below its number of edges, and an edge predicate [f], an
    entry of the adjacency is shown exactly when [f] holds of it:
    [GetAdjacentEdgeRange(n)] is the adjacency of [n] in [g] filtered by
    [f], and [GetTarget(e)] on an entry [e] succeeds exactly when [f(e)]. *)
Theorem static_pred_shows_f {D} (g : Graph.t D) (f : EdgeID → bool) :
  edge_ids_in_bounds g →
  let v := StaticFiltered.FilteredGraphImpl_pred g f in
  (∀ n, StaticFiltered.GetAdjacentEdgeRange v n
        = filtered f (Graph.GetAdjacentEdgeRange g n))
  ∧ (∀ n e, In e (Graph.GetAdjacentEdgeRange g n) →
            StaticFiltered.GetTarget v e
            = if f e then Some (Graph.GetTarget g e) else None).
Proof.
  intros Hin v. unfold v. rewrite static_pred_eq. split.
  - intros n. apply filtered_ext. intros e He. simpl.
    apply at_index_fmap_irange. by eapply Hin.
  - intros n e He. unfold StaticFiltered.GetTarget. simpl.
    rewrite at_index_fmap_irange by (by eapply Hin). by destruct (f e).
Qed.

Lemma triangle_in_bounds w0 w1 w2 : edge_ids_in_bounds (triangle w0 w1 w2).
Proof.
  intros n e Hin. simpl.
  destruct n as [|[[]| |]]; simpl in Hin; intuition (subst; lia).
Qed.

Lemma static_pred_shows_f_witness :
  (∀ n, StaticFiltered.GetAdjacentEdgeRange
          (StaticFiltered.FilteredGraphImpl_pred (triangle 1 1 1)
             (λ e, e =? 1)) n
        = filtered (λ e, e =? 1)
            (Graph.GetAdjacentEdgeRange (triangle 1 1 1) n))
  ∧ (∀ n e, In e (Graph.GetAdjacentEdgeRange (triangle 1 1 1) n) →
            StaticFiltered.GetTarget
              (StaticFiltered.FilteredGraphImpl_pred (triangle 1 1 1)
                 (λ e, e =? 1)) e
            = if e =? 1 then Some (Graph.GetTarget (triangle 1 1 1) e)
              else None).
Proof.
  apply (static_pred_shows_f (triangle 1 1 1) (λ e, e =? 1)).
  apply triangle_in_bounds.
Defined.

(** X10. The vector constructor applied to the materialised predicate
    [f(0), ..., f(edgeCount - 1)] builds the very view that the predicate
    constructor builds from [f]: the same graph and the same filter, hence
    the same answer from every operation. *)
Theorem static_constructors_agree {D} (g : Graph.t D) (f : EdgeID → bool) :
  StaticFiltered.FilteredGraphImpl_vector g
    (f <$> irange 0 (Graph.GetNumberOfEdges g))
  = Some (StaticFiltered.FilteredGraphImpl_pred g f).
Proof.
  apply static_vector_Some. split.
  - rewrite length_fmap, irange_length. lia.
  - apply static_pred_eq.
Qed.

Lemma fmap_at_index_irange (mask : list bool) :
  at_index mask <$> irange 0 (N.of_nat (length mask)) = mask.
Proof.
  apply list_eq. intros i. rewrite list_lookup_fmap.
  destruct (decide (i < length mask)%nat) as [Hi|Hi].
  - rewrite irange_lookup by lia. simpl. unfold at_index.
    rewrite Nat2N.id. destruct (lookup_lt_is_Some_2 mask i Hi) as [b Hb].
    by rewrite Hb.
  - rewrite (lookup_ge_None_2 mask) by lia.
    rewrite lookup_ge_None_2; [done|]. rewrite irange_length. lia.
Qed.

(** X11. A static view whose filter has one entry per edge is rebuilt by
    either constructor from its own parts: the vector constructor accepts
    its graph and filter and returns the view, and the predicate constructor
    run on its graph with the predicate "the filter bit of the edge is set"
    returns the view as well. *)
Theorem static_view_rebuilt {D} (v : StaticFiltered.FilteredGraphImpl D) :
  N.of_nat (length (StaticFiltered.edge_filter v))
  = Graph.GetNumberOfEdges (StaticFiltered.graph v) →
  StaticFiltered.FilteredGraphImpl_vector (StaticFiltered.graph v)
    (StaticFiltered.edge_filter v) = Some v
  ∧ StaticFiltered.FilteredGraphImpl_pred (StaticFiltered.graph v)
      (at_index (StaticFiltered.edge_filter v)) = v.
Proof.
  intros Hsize. split.
  - apply static_vector_Some. split; [done|]. by destruct v.
  - rewrite static_pred_eq, <- Hsize, fmap_at_index_irange. by destruct v.
Qed.

Lemma static_view_rebuilt_witness :
  StaticFiltered.FilteredGraphImpl_vector (StaticFiltered.graph static_masked)
    (StaticFiltered.edge_filter static_masked) = Some static_masked
  ∧ StaticFiltered.FilteredGraphImpl_pred (StaticFiltered.graph static_masked)
      (at_index (StaticFiltered.edge_filter static_masked)) = static_masked.
Proof. apply (static_view_rebuilt static_masked). reflexivity. Defined.

(** ** What the constructor of the dynamic view writes and what the view
    reads *)

(** X20. The constructor of the dynamic view writes, into the filter bit of
    the record of every edge [e] in the adjacency of a node [s] of the
    graph, the value [p(s) && p(target of e)]; the graph lists every edge id
    once in its adjacency. *)
Theorem dynamic_constructor_writes_bit {D} (g : Graph.t D)
    (p : NodeID → bool) (s : NodeID) (e : EdgeID) :
  NoDup (Graph.all_edges g) →
  s < Graph.GetNumberOfNodes g →
  In e (Graph.GetAdjacentEdgeRange g s) →
  DynamicFiltered.filter_bit (DynamicFiltered.FilteredGraphImpl_pred g p) e
  = p s && p (Graph.GetTarget g e).
Proof. apply dynamic_pred_filter. Qed.

Lemma dynamic_constructor_writes_bit_witness :
  DynamicFiltered.filter_bit dynamic_without_2 1
  = negb (0 =? 2) && negb (Graph.GetTarget (triangle 1 1 1) 1 =? 2).
Proof.
  apply (dynamic_constructor_writes_bit
           (with_filter_member (triangle 1 1 1) (λ _, true))
           (λ n, negb (n =? 2)) 0 1).
  - apply (triangle_NoDup 1 1 1).
  - reflexivity.
  - simpl. tauto.
Defined.

(** X21. What the dynamic view shows does not depend on the predicate it
    was built with: [GetAdjacentEdgeRange(n)] is the adjacency of [n] in
    the graph filtered by the [filter] member of the edge data that the
    graph held, and [GetTarget], [GetEdgeData] and the two counts return
    what the graph held, for every edge and every predicate. *)
Theorem dynamic_view_ignores_predicate {D} {HF : HasFilter D}
    (g : Graph.t D) (p : NodeID → bool) :
  let v := DynamicFiltered.FilteredGraphImpl_pred g p in
  (∀ n, DynamicFiltered.GetAdjacentEdgeRange v n
        = filtered (λ e, member_filter (Graph.GetEdgeData g e))
            (Graph.GetAdjacentEdgeRange g n))
  ∧ (∀ e, DynamicFiltered.GetTarget v e = Graph.GetTarget g e
          ∧ DynamicFiltered.GetEdgeData v e = Graph.GetEdgeData g e)
  ∧ DynamicFiltered.GetNumberOfNodes v = Graph.GetNumberOfNodes g
  ∧ DynamicFiltered.GetNumberOfEdges v = Graph.GetNumberOfEdges g.
Proof.
  intros v.
  destruct (dynamic_pred_structure g p) as (Hrange & Htgt & Hnodes & Hedges).
  fold v in Hrange, Htgt, Hnodes, Hedges.
  assert (Hdata : ∀ e, DynamicFiltered.GetEdgeData v e = Graph.GetEdgeData g e).
  { intros e. apply dynamic_pred_data. }
  split_and!; [|intros e; split|done..].
  - intros n. unfold DynamicFiltered.GetAdjacentEdgeRange. rewrite Hrange.
    apply filtered_ext. intros e _. by rewrite Hdata.
  - unfold DynamicFiltered.GetTarget. by rewrite Htgt.
  - apply Hdata.
Qed.
